(** * Request-to-file resolution of the bathroom planner's static server

    A shallow embedding of [serve] from [serve_modal.py]: the handler strips
    the leading slashes of the URL path, joins the rest under [/assets],
    serves the file when it is a regular file, serves the entry document when
    the name has no dot, and answers 404 otherwise.

    The pieces of Python the handler relies on are embedded next to it:
    [str.lstrip], the [in] test on strings, [str.split], the parsing and
    joining of [pathlib.PurePosixPath], and [Path.exists] / [Path.is_file],
    both of which are a [stat] of the path followed by a test of the kind.

    The handler is embedded twice.  [serve] works on what [exists] and
    [is_file] let it see of the file system, where they return.
    [Raising.serve] works on a file system whose [os.stat] may fail, and
    raises what the two calls raise again; [serve_raising_returns] and
    [serve_raising_raises] relate the two. *)

From Stdlib Require Import String Ascii List Bool ZArith.
Import ListNotations.
Open Scope string_scope.

(** ** Python strings *)

Module PyStr.

(** [c in chars] for a one-character [c]. *)
Fixpoint mem (c : ascii) (chars : string) : bool :=
  match chars with
  | EmptyString => false
  | String d rest => if Ascii.eqb c d then true else mem c rest
  end.

(** [s.lstrip(chars)]: drops every leading character that belongs to
    [chars], and stops at the first one that does not. *)
Fixpoint lstrip (s chars : string) : string :=
  match s with
  | EmptyString => EmptyString
  | String c rest => if mem c chars then lstrip rest chars else s
  end.

(** [sub in s]: [sub] occurs in [s] as a substring. *)
Fixpoint contains (sub s : string) : bool :=
  if String.prefix sub s then true
  else match s with
       | EmptyString => false
       | String _ rest => contains sub rest
       end.

(** [s.startswith(p)] *)
Definition startswith (s p : string) : bool := String.prefix p s.

(** [s.split(sep)] for a one-character separator: the fields between the
    separators, empty fields included. *)
Fixpoint split (s : string) (sep : ascii) : list string :=
  match s with
  | EmptyString => [EmptyString]
  | String c rest =>
      if Ascii.eqb c sep then EmptyString :: split rest sep
      else match split rest sep with
           | [] => [String c EmptyString]
           | field :: fields => String c field :: fields
           end
  end.

(** [not s]: the empty string is the only falsy one. *)
Definition falsy (s : string) : bool :=
  match s with EmptyString => true | String _ _ => false end.

(** [ch * n] *)
Fixpoint times (c : ascii) (n : nat) : string :=
  match n with
  | O => EmptyString
  | S k => String c (times c k)
  end.

(** A character of the string. *)
Fixpoint occurs (c : ascii) (s : string) : Prop :=
  match s with
  | EmptyString => False
  | String d rest => c = d \/ occurs c rest
  end.

End PyStr.

(** ** pathlib.PurePosixPath *)

Module Pathlib.

(** A parsed path: its root (empty, one slash or two slashes) and its parts after
    the root.  Two paths are equal when both agree, as in pathlib. *)
Record PurePosixPath : Type := MkPath {
  root : string;
  parts : list string
}.

Definition sep : ascii := "/"%char.

(** [posixpath.splitroot]: exactly two leading slashes make the root
    ["//"], any other number of them the root ["/"]. *)
Definition splitroot (p : string) : string * string :=
  match p with
  | String "/" (String "/" (String "/" rest)) =>
      ("/", String "/" (String "/" rest))
  | String "/" (String "/" rest) => ("//", rest)
  | String "/" rest => ("/", rest)
  | _ => (EmptyString, p)
  end.

Definition is_component (x : string) : bool :=
  negb (PyStr.falsy x) && negb (String.eqb x ".").

(** The parts of a relative tail: [[x for x in rel.split("/") if x and x != "."]]. *)
Definition components (rel : string) : list string :=
  filter is_component (PyStr.split rel sep).

(** [Path(s)] *)
Definition Path (s : string) : PurePosixPath :=
  let '(r, rel) := splitroot s in
  MkPath r (components rel).

(** [base / key]: an absolute [key] replaces [base], a relative one is
    appended part by part.  [".."] parts are kept as they are. *)
Definition truediv (base : PurePosixPath) (key : string) : PurePosixPath :=
  if PyStr.startswith key "/" then Path key
  else MkPath (root base) (parts base ++ components key).

(** [s.endswith(c)] for a one-character [c]. *)
Fixpoint endswith (s : string) (c : ascii) : bool :=
  match s with
  | EmptyString => false
  | String d EmptyString => Ascii.eqb d c
  | String _ rest => endswith rest c
  end.

(** [posixpath.join(a, b)], the text pathlib parses for [Path(a) / b]. *)
Definition posixpath_join (a b : string) : string :=
  if PyStr.startswith b "/" then b
  else if PyStr.falsy a || endswith a sep then a ++ b
  else a ++ String sep b.

Definition path_eq_dec (p q : PurePosixPath) : {p = q} + {p <> q}.
Proof.
  decide equality.
  - apply (list_eq_dec string_dec).
  - apply string_dec.
Defined.

End Pathlib.
Import Pathlib.

Notation "base // key" := (truediv base key) (at level 40, left associativity).

(** ** The file system seen through [stat] *)

Inductive FileKind : Type :=
| Regular
| Directory
| Other.

(** What [os.stat] (which follows symbolic links) answers for a path:
    [None] when the path does not lead to anything, a dangling link
    included, or fails with another error that [exists] and [is_file]
    catch.  The errors they raise again have no place here: see [Raising]
    and [visible] for a file system with them. *)
Record FileSystem : Type := MkFS {
  stat : PurePosixPath -> option FileKind
}.

(** [p.exists()], where it returns. *)
Definition exists_ (fs : FileSystem) (p : PurePosixPath) : bool :=
  match stat fs p with
  | Some _ => true
  | None => false
  end.

(** [p.is_file()], where it returns. *)
Definition is_file (fs : FileSystem) (p : PurePosixPath) : bool :=
  match stat fs p with
  | Some Regular => true
  | _ => false
  end.

(** [p.is_dir()] *)
Definition is_dir (fs : FileSystem) (p : PurePosixPath) : bool :=
  match stat fs p with
  | Some Directory => true
  | _ => false
  end.

(** ** The handler *)

(** The two kinds of response the handler builds.  [Response] carries the
    body given to it ([None] when only [status_code] is passed). *)
Inductive HttpResponse : Type :=
| FileResponse (path : PurePosixPath)
| Response (content : option string) (status_code : Z).


Definition assets_root : PurePosixPath := Path "/assets".

(** The name looked up under the assets root: the URL path without its
    leading slashes, or [index.html] when nothing is left. *)
Definition normalize (request_path : string) : string :=
  let path := PyStr.lstrip request_path "/" in
  if PyStr.falsy path || String.eqb path EmptyString then "index.html" else path.

(** [file_path] of the handler. *)
Definition candidate (request_path : string) : PurePosixPath :=
  Path "/assets" // normalize request_path.

(** [serve], statement by statement, where its two calls into the file
    system return. *)
Definition serve (fs : FileSystem) (request_path : string) : HttpResponse :=
  let path := PyStr.lstrip request_path "/" in
  let path := if PyStr.falsy path || String.eqb path EmptyString then "index.html" else path in
  let file_path := Path "/assets" // path in
  if exists_ fs file_path && is_file fs file_path then
    FileResponse file_path
  else if negb (PyStr.contains "." path) then
    FileResponse (Path "/assets/index.html")
  else
    Response None 404.

(** The three return statements of [serve], named as the resolution
    outcomes: the file branch, the fallback branch and the 404 branch. *)
Inductive Outcome : Type :=
| ServeFile (location : PurePosixPath)
| ServeFallback
| NotFound.

(** Which return statement [serve] reaches. *)
Definition resolve (fs : FileSystem) (request_path : string) : Outcome :=
  let path := PyStr.lstrip request_path "/" in
  let path := if PyStr.falsy path || String.eqb path EmptyString then "index.html" else path in
  let file_path := Path "/assets" // path in
  if exists_ fs file_path && is_file fs file_path then
    ServeFile file_path
  else if negb (PyStr.contains "." path) then
    ServeFallback
  else
    NotFound.

(** The location served on the fallback branch. *)
Definition fallback_location : PurePosixPath := Path "/assets/index.html".

(** The response built at each return statement. *)
Definition respond (o : Outcome) : HttpResponse :=
  match o with
  | ServeFile location => FileResponse location
  | ServeFallback => FileResponse fallback_location
  | NotFound => Response None 404
  end.


(** A worker answering a list of requests one after the other: the handler
    keeps nothing between two calls. *)
Fixpoint serve_all (fs : FileSystem) (requests : list string) : list HttpResponse :=
  match requests with
  | [] => []
  | request_path :: later => serve fs request_path :: serve_all fs later
  end.

(** ** A concrete file system without symbolic links

    A table from canonical absolute locations (the list of names from the
    root down) to the kind of what lives there, and the kernel's walk of a
    path over it: every name but the last must be a directory, and a [..]
    part goes to the parent (the parent of the root is the root). *)

Module Posix.

Definition Location : Type := list string.

Definition Table : Type := list (Location * FileKind).

Definition location_eqb (a b : Location) : bool :=
  if list_eq_dec string_dec a b then true else false.

(** The kind of what lives at a canonical location; the root is always a
    directory. *)
Fixpoint kind_at (t : Table) (loc : Location) : option FileKind :=
  match loc with
  | [] => Some Directory
  | _ =>
      match t with
      | [] => None
      | (l, k) :: rest => if location_eqb l loc then Some k else kind_at rest loc
      end
  end.

(** Walks [names] from the directory [cwd]; the answer is the canonical
    location reached. *)
Fixpoint walk (t : Table) (cwd : Location) (names : list string) : option Location :=
  match names with
  | [] => Some cwd
  | name :: rest =>
      match kind_at t cwd with
      | Some Directory =>
          if String.eqb name ".." then walk t (removelast cwd) rest
          else walk t (cwd ++ [name])%list rest
      | _ => None
      end
  end.

(** The canonical location a path leads to (absolute paths start at the
    root; the working directory of the worker is the root as well). *)
Definition realpath (t : Table) (p : PurePosixPath) : option Location :=
  match walk t [] (parts p) with
  | Some loc =>
      match kind_at t loc with
      | Some _ => Some loc
      | None => None
      end
  | None => None
  end.

Definition stat_of (t : Table) (p : PurePosixPath) : option FileKind :=
  match realpath t p with
  | Some loc => kind_at t loc
  | None => None
  end.

Definition file_system (t : Table) : FileSystem := MkFS (stat_of t).




End Posix.

(** The deployment of the first scenario: [index.html], [app.js] and
    [style.css] under [/assets], next to the system's [/etc/passwd]. *)
Definition scenario_table : Posix.Table :=
  [ (["assets"], Directory);
    (["assets"; "index.html"], Regular);
    (["assets"; "app.js"], Regular);
    (["assets"; "style.css"], Regular);
    (["assets"; "img"], Directory);
    (["assets"; "fonts.d"], Directory);
    (["assets"; "LICENSE"], Regular);
    (["etc"], Directory);
    (["etc"; "passwd"], Regular) ].

Definition scenario_fs : FileSystem := Posix.file_system scenario_table.

(** A deployment whose [/assets] has no entry document. *)
Definition bare_fs : FileSystem :=
  Posix.file_system [ (["assets"], Directory) ].

(** ** The claims of the specification, as predicates *)

(** Normalization as the specification words it: exactly one leading
    separator is removed. *)
Definition normalize_one_separator (request_path : string) : string :=
  let stripped :=
    match request_path with
    | String "/" rest => rest
    | _ => request_path
    end in
  match stripped with
  | EmptyString => "index.html"
  | _ => stripped
  end.


(** ** The file system when [os.stat] can fail

    [Path.exists] and [Path.is_file] call [os.stat] and catch what it
    raises: an [OSError] whose errno is one of [_IGNORED_ERRNOS] and a
    [ValueError] are turned into the answer [False], any other [OSError] is
    raised again and leaves the handler as an exception. *)

Module Raising.

Inductive Errno : Type :=
| ENOENT
| ENOTDIR
| EBADF
| ELOOP
| EACCES
| ENAMETOOLONG
| EIO.

Inductive Exception : Type :=
| OSError (errno : Errno)
| ValueError.

(** One call of [os.stat]: the kind read from [st_mode], or an exception. *)
Inductive StatResult : Type :=
| st_mode (kind : FileKind)
| stat_raises (e : Exception).

Record OsFileSystem : Type := MkOsFS {
  os_stat : PurePosixPath -> StatResult
}.

(** A call that returns a value or raises. *)
Inductive Result (A : Type) : Type :=
| Returns (a : A)
| Raises (e : Exception).

Arguments Returns {A} a.
Arguments Raises {A} e.

Definition bind {A B : Type} (r : Result A) (k : A -> Result B) : Result B :=
  match r with
  | Returns a => k a
  | Raises e => Raises e
  end.

(** [_ignore_error]: the errno is one of [(ENOENT, ENOTDIR, EBADF, ELOOP)]. *)
Definition _ignore_error (errno : Errno) : bool :=
  match errno with
  | ENOENT | ENOTDIR | EBADF | ELOOP => true
  | _ => false
  end.

(** [p.exists()] *)
Definition exists_ (os : OsFileSystem) (p : PurePosixPath) : Result bool :=
  match os_stat os p with
  | st_mode _ => Returns true
  | stat_raises (OSError errno) =>
      if negb (_ignore_error errno) then Raises (OSError errno) else Returns false
  | stat_raises ValueError => Returns false
  end.

(** [p.is_file()] *)
Definition is_file (os : OsFileSystem) (p : PurePosixPath) : Result bool :=
  match os_stat os p with
  | st_mode kind => Returns match kind with Regular => true | _ => false end
  | stat_raises (OSError errno) =>
      if negb (_ignore_error errno) then Raises (OSError errno) else Returns false
  | stat_raises ValueError => Returns false
  end.

(** [a and b] on calls that may raise: [b] is only called when [a] returned
    [True]. *)
Definition and_then (a : Result bool) (b : Result bool) : Result bool :=
  bind a (fun x => if x then b else Returns false).

(** [serve], statement by statement, with the exceptions of its two calls
    into the file system. *)
Definition serve (os : OsFileSystem) (request_path : string) : Result HttpResponse :=
  let path := PyStr.lstrip request_path "/" in
  let path := if PyStr.falsy path || String.eqb path EmptyString then "index.html" else path in
  let file_path := Path "/assets" // path in
  bind (and_then (exists_ os file_path) (is_file os file_path)) (fun found =>
  if found then
    Returns (FileResponse file_path)
  else if negb (PyStr.contains "." path) then
    Returns (FileResponse (Path "/assets/index.html"))
  else
    Returns (Response None 404)).

(** Which return statement [serve] reaches, if it reaches one. *)
Definition resolve (os : OsFileSystem) (request_path : string) : Result Outcome :=
  let path := PyStr.lstrip request_path "/" in
  let path := if PyStr.falsy path || String.eqb path EmptyString then "index.html" else path in
  let file_path := Path "/assets" // path in
  bind (and_then (exists_ os file_path) (is_file os file_path)) (fun found =>
  if found then
    Returns (ServeFile file_path)
  else if negb (PyStr.contains "." path) then
    Returns ServeFallback
  else
    Returns NotFound).

(** The exception that [exists] and [is_file] raise again for an answer of
    [os.stat], if any. *)
Definition reraised (r : StatResult) : option Exception :=
  match r with
  | stat_raises (OSError errno) =>
      if _ignore_error errno then None else Some (OSError errno)
  | _ => None
  end.

(** The longest name a directory entry can have, in bytes. *)
Definition NAME_MAX : nat := 255.

(** The kernel's walk of a path over a table, with the errno of each way
    it fails: a name longer than [NAME_MAX] cannot be looked up. *)
Fixpoint walk (t : Posix.Table) (cwd : Posix.Location) (names : list string)
  : Posix.Location + Errno :=
  match names with
  | [] => inl cwd
  | name :: rest =>
      match Posix.kind_at t cwd with
      | Some Directory =>
          if String.eqb name ".." then walk t (removelast cwd) rest
          else if Nat.ltb NAME_MAX (String.length name) then inr ENAMETOOLONG
          else walk t (cwd ++ [name])%list rest
      | Some _ => inr ENOTDIR
      | None => inr ENOENT
      end
  end.

(** [os.stat] over a table. *)
Definition stat_of (t : Posix.Table) (p : PurePosixPath) : StatResult :=
  match walk t [] (parts p) with
  | inl loc =>
      match Posix.kind_at t loc with
      | Some kind => st_mode kind
      | None => stat_raises (OSError ENOENT)
      end
  | inr errno => stat_raises (OSError errno)
  end.

Definition file_system (t : Posix.Table) : OsFileSystem := MkOsFS (stat_of t).

End Raising.

(** What [exists] and [is_file] let the handler see of a file system whose
    [os.stat] may fail: the kind when it answers, nothing otherwise. *)
Definition visible (os : Raising.OsFileSystem) : FileSystem :=
  MkFS (fun p =>
          match Raising.os_stat os p with
          | Raising.st_mode kind => Some kind
          | Raising.stat_raises _ => None
          end).

(** The deployment of the first scenario, with the errors of its kernel. *)
Definition scenario_os : Raising.OsFileSystem := Raising.file_system scenario_table.

(** A request for a name of 256 bytes. *)
Definition long_request : string := "/" ++ PyStr.times "a" 256.

(** A request into a directory that cannot be searched. *)
Definition locked_os : Raising.OsFileSystem :=
  Raising.MkOsFS (fun p =>
    match parts p with
    | ["assets"] => Raising.st_mode Directory
    | ["assets"; "index.html"] => Raising.st_mode Regular
    | ["assets"; "private"] => Raising.st_mode Directory
    | "assets" :: "private" :: _ => Raising.stat_raises (Raising.OSError Raising.EACCES)
    | _ => Raising.stat_raises (Raising.OSError Raising.ENOENT)
    end).

(** The handler reaches a return statement on every request and every state
    of the file system. *)
Definition always_returns : Prop :=
  forall (os : Raising.OsFileSystem) (request_path : string),
  exists o, Raising.resolve os request_path = Raising.Returns o.

(** The scenarios, evaluated on the deployment above. *)

Example scenario_root : resolve scenario_fs "/" = ServeFile (Path "/assets/index.html").
Proof. reflexivity. Qed.

Example scenario_app_js : resolve scenario_fs "/app.js" = ServeFile (Path "/assets/app.js").
Proof. reflexivity. Qed.

Example scenario_about : resolve scenario_fs "/about" = ServeFallback.
Proof. reflexivity. Qed.

Example scenario_missing_png : resolve scenario_fs "/missing.png" = NotFound.
Proof. reflexivity. Qed.

Example scenario_directory : resolve scenario_fs "/img" = ServeFallback.
Proof. reflexivity. Qed.

Example scenario_dotted_directory : resolve scenario_fs "/fonts.d" = NotFound.
Proof. reflexivity. Qed.

Example scenario_no_index : resolve bare_fs "/" = NotFound.
Proof. reflexivity. Qed.

Example scenario_passwd :
  resolve scenario_fs "/../../etc/passwd"
  = ServeFile (MkPath "/" ["assets"; ".."; ".."; "etc"; "passwd"]).
Proof. reflexivity. Qed.

(** ** Facts about the string operations *)

Section StringFacts.

Lemma mem_slash (c : ascii) : PyStr.mem c "/" = Ascii.eqb c "/".
Proof. simpl. destruct (Ascii.eqb c "/"); reflexivity. Qed.

Lemma startswith_slash (s : string) :
  PyStr.startswith s "/" = match s with
                           | String c _ => Ascii.eqb c "/"
                           | EmptyString => false
                           end.
Proof.
  destruct s as [|c s]; [reflexivity|].
  unfold PyStr.startswith. cbn [String.prefix].
  destruct (ascii_dec "/" c) as [<-|Hne].
  - destruct s; reflexivity.
  - symmetry. apply Ascii.eqb_neq. congruence.
Qed.

(** What [lstrip] leaves never starts with a slash. *)
Lemma lstrip_no_leading_slash (s : string) :
  PyStr.startswith (PyStr.lstrip s "/") "/" = false.
Proof.
  induction s as [|c s IH]; [reflexivity|].
  cbn [PyStr.lstrip]. rewrite mem_slash.
  destruct (Ascii.eqb c "/") eqn:E; [exact IH|].
  rewrite startswith_slash. exact E.
Qed.

(** [lstrip] removes a whole run of leading slashes. *)
Lemma lstrip_times (n : nat) (s : string) :
  PyStr.lstrip (PyStr.times "/" n ++ s) "/" = PyStr.lstrip s "/".
Proof.
  induction n as [|n IH]; [reflexivity|].
  cbn [PyStr.times append PyStr.lstrip]. rewrite mem_slash.
  rewrite Ascii.eqb_refl. exact IH.
Qed.

(** A string that does not start with a slash is left alone. *)
Lemma lstrip_fixed (s : string) :
  PyStr.startswith s "/" = false -> PyStr.lstrip s "/" = s.
Proof.
  rewrite startswith_slash.
  destruct s as [|c s]; [reflexivity|].
  intros E. cbn [PyStr.lstrip]. rewrite mem_slash, E. reflexivity.
Qed.

(** Every string is a run of slashes followed by what [lstrip] keeps. *)
Lemma lstrip_decompose (s : string) :
  exists n, s = PyStr.times "/" n ++ PyStr.lstrip s "/".
Proof.
  induction s as [|c s [n IH]].
  - exists 0. reflexivity.
  - cbn [PyStr.lstrip]. rewrite mem_slash.
    destruct (Ascii.eqb c "/") eqn:E.
    + apply Ascii.eqb_eq in E. subst c.
      exists (S n). cbn [PyStr.times append]. f_equal. exact IH.
    + exists 0. reflexivity.
Qed.

Lemma falsy_or_empty (s : string) :
  PyStr.falsy s || String.eqb s EmptyString = PyStr.falsy s.
Proof. destruct s; reflexivity. Qed.

Lemma normalize_eq (request_path : string) :
  normalize request_path
  = if PyStr.falsy (PyStr.lstrip request_path "/") then "index.html"
    else PyStr.lstrip request_path "/".
Proof. unfold normalize. rewrite falsy_or_empty. reflexivity. Qed.

(** The normalized name is relative and not empty. *)
Lemma normalize_relative (request_path : string) :
  PyStr.startswith (normalize request_path) "/" = false.
Proof.
  rewrite normalize_eq.
  destruct (PyStr.falsy (PyStr.lstrip request_path "/")).
  - reflexivity.
  - apply lstrip_no_leading_slash.
Qed.


(** The test [sub in s] for a one-character [sub] finds that character. *)
Lemma contains_char (c : ascii) (s : string) :
  PyStr.contains (String c EmptyString) s = true <-> PyStr.occurs c s.
Proof.
  induction s as [|d s IH].
  - simpl. split; [discriminate | tauto].
  - cbn [PyStr.contains PyStr.occurs String.prefix].
    destruct (ascii_dec c d) as [->|Hne].
    + destruct s; cbn [String.prefix]; tauto.
    + rewrite IH. split; [tauto|]. intros [H|H]; [congruence | exact H].
Qed.



End StringFacts.

(** ** Facts about the handler *)

Section HandlerFacts.

Variable fs : FileSystem.

(** The test of the first [if] is a test of the kind [stat] answers. *)
Lemma exists_and_is_file (p : PurePosixPath) :
  exists_ fs p && is_file fs p = is_file fs p.
Proof. unfold exists_, is_file. destruct (stat fs p) as [[]|]; reflexivity. Qed.

Lemma is_file_stat (p : PurePosixPath) :
  is_file fs p = true <-> stat fs p = Some Regular.
Proof.
  unfold is_file. destruct (stat fs p) as [[]|]; split; congruence.
Qed.

Lemma is_dir_not_file (p : PurePosixPath) :
  is_dir fs p = true -> is_file fs p = false.
Proof. unfold is_dir, is_file. destruct (stat fs p) as [[]|]; congruence. Qed.

(** [resolve] by cases on the candidate and on the normalized name. *)
Lemma resolve_eq (request_path : string) :
  resolve fs request_path
  = if is_file fs (candidate request_path) then ServeFile (candidate request_path)
    else if PyStr.contains "." (normalize request_path) then NotFound
    else ServeFallback.
Proof.
  unfold resolve. fold (normalize request_path). fold (candidate request_path).
  rewrite exists_and_is_file.
  destruct (is_file fs (candidate request_path)); [reflexivity|].
  destruct (PyStr.contains "." (normalize request_path)); reflexivity.
Qed.

(** [serve] answers with the response of the return statement that
    [resolve] names. *)
Lemma serve_respond (request_path : string) :
  serve fs request_path = respond (resolve fs request_path).
Proof.
  unfold serve, resolve.
  destruct (exists_ fs _ && is_file fs _); [reflexivity|].
  destruct (negb _); reflexivity.
Qed.

End HandlerFacts.

(** The candidate is always [/assets] followed by the parts of the name. *)
Lemma candidate_parts (request_path : string) :
  candidate request_path
  = MkPath "/" ("assets" :: components (normalize request_path)).
Proof.
  unfold candidate, truediv. rewrite normalize_relative. reflexivity.
Qed.

(** Joining under [/assets] part by part is parsing the joined text. *)
Lemma truediv_assets_join (key : string) :
  Path "/assets" // key = Path (posixpath_join "/assets" key).
Proof.
  unfold truediv, posixpath_join.
  destruct (PyStr.startswith key "/"); reflexivity.
Qed.

Lemma fallback_location_eq : fallback_location = assets_root // "index.html".
Proof. reflexivity. Qed.

(** ** Facts about the walk of a path *)

Section WalkFacts.

Variable t : Posix.Table.



End WalkFacts.

(** ** The resolution policy *)

(** C1: whenever the candidate, the assets root joined with the normalized
    name, exists and is a regular file, the handler takes the file branch
    and serves exactly that candidate, whatever the name looks like. *)
Theorem existing_file_is_served (fs : FileSystem) (request_path : string) :
  exists_ fs (assets_root // normalize request_path) = true ->
  is_file fs (assets_root // normalize request_path) = true ->
  resolve fs request_path = ServeFile (assets_root // normalize request_path)
  /\ serve fs request_path = FileResponse (assets_root // normalize request_path).
Proof.
  intros _ Hfile.
  change (assets_root // normalize request_path) with (candidate request_path) in *.
  rewrite serve_respond, resolve_eq, Hfile. split; reflexivity.
Qed.

Lemma existing_file_is_served_witness :
  PyStr.contains "." (normalize "/LICENSE") = false
  /\ resolve scenario_fs "/LICENSE" = ServeFile (Path "/assets/LICENSE")
  /\ serve scenario_fs "/app.js" = FileResponse (Path "/assets/app.js").
Proof.
  split; [reflexivity|]. split.
  - apply (existing_file_is_served scenario_fs "/LICENSE"); reflexivity.
  - apply (existing_file_is_served scenario_fs "/app.js"); reflexivity.
Defined.








(** C5, as claimed, fails: the handler removes every leading separator, so
    [//foo] becomes [foo] where removing exactly one would leave [/foo]. *)
Lemma two_separators_both_stripped :
  normalize "//foo" = "foo"
  /\ normalize_one_separator "//foo" = "/foo"
  /\ normalize "//foo" <> normalize_one_separator "//foo".
Proof.
  split; [reflexivity|]. split; [reflexivity|]. vm_compute. discriminate.
Qed.

(** C5, amended: normalization removes all the leading separators of the
    request path, however many there are, and when nothing is left the
    normalized name is the literal [index.html]. *)
Theorem normalize_strips_every_separator (n : nat) (rest : string) :
  PyStr.startswith rest "/" = false ->
  normalize (PyStr.times "/" n ++ rest)
  = match rest with
    | EmptyString => "index.html"
    | _ => rest
    end.
Proof.
  intros Hrest. rewrite normalize_eq, lstrip_times, (lstrip_fixed _ Hrest).
  destruct rest; reflexivity.
Qed.

Lemma normalize_strips_every_separator_witness :
  normalize "//foo" = "foo" /\ normalize "///" = "index.html".
Proof.
  split.
  - apply (normalize_strips_every_separator 2 "foo"). reflexivity.
  - apply (normalize_strips_every_separator 3 EmptyString). reflexivity.
Defined.

(** C6: for the empty request path and for [/], when [index.html] under the
    assets root exists as a regular file, the handler takes the file branch
    and serves that [index.html]. *)
Theorem root_serves_index (fs : FileSystem) (request_path : string) :
  request_path = EmptyString \/ request_path = "/" ->
  stat fs (assets_root // "index.html") = Some Regular ->
  resolve fs request_path = ServeFile (assets_root // "index.html")
  /\ serve fs request_path = FileResponse (assets_root // "index.html").
Proof.
  intros Hpath Hindex. apply is_file_stat in Hindex.
  assert (Hname : normalize request_path = "index.html")
    by (destruct Hpath; subst request_path; reflexivity).
  rewrite serve_respond, resolve_eq. unfold candidate. rewrite Hname.
  change (Path "/assets") with assets_root. rewrite Hindex. split; reflexivity.
Qed.

Lemma root_serves_index_witness :
  resolve scenario_fs "/" = ServeFile (Path "/assets/index.html")
  /\ serve scenario_fs EmptyString = FileResponse (Path "/assets/index.html").
Proof.
  split.
  - apply (root_serves_index scenario_fs "/"); [right; reflexivity | reflexivity].
  - apply (root_serves_index scenario_fs EmptyString); [left; reflexivity | reflexivity].
Defined.

(** When [os.stat] answers or fails with an ignored error, the return
    statement reached is fixed by the kind of the candidate and by the dot
    test: the three conditions exclude one another and cover every case. *)
Lemma resolve_exactly_one_outcome (fs : FileSystem) (request_path : string) :
  let o := resolve fs request_path in
  ((exists location, o = ServeFile location) \/ o = ServeFallback \/ o = NotFound)
  /\ ~ ((exists location, o = ServeFile location) /\ o = ServeFallback)
  /\ ~ ((exists location, o = ServeFile location) /\ o = NotFound)
  /\ ~ (o = ServeFallback /\ o = NotFound)
  /\ serve fs request_path = respond o
  /\ (stat fs (candidate request_path) = Some Regular <->
      o = ServeFile (candidate request_path))
  /\ (stat fs (candidate request_path) <> Some Regular
      /\ PyStr.contains "." (normalize request_path) = false <-> o = ServeFallback)
  /\ (stat fs (candidate request_path) <> Some Regular
      /\ PyStr.contains "." (normalize request_path) = true <-> o = NotFound).
Proof.
  cbv zeta. rewrite serve_respond, resolve_eq.
  rewrite <- !is_file_stat.
  destruct (is_file fs (candidate request_path)) eqn:Hfile;
    [|destruct (PyStr.contains "." (normalize request_path)) eqn:Hdot].
  - repeat split; try (intros; discriminate); try congruence.
    + left. eexists. reflexivity.
    + intros [[? ?] ?]. discriminate.
    + intros [[? ?] ?]. discriminate.
    + intros [? ?]. discriminate.
    + intros [? ?]. congruence.
    + intros [? ?]. congruence.
  - repeat split; try (intros; discriminate); try congruence.
    + right. right. reflexivity.
    + intros [[? ?] ?]. discriminate.
    + intros [[? ?] ?]. discriminate.
    + intros [? ?]. discriminate.
    + intros [? ?]. discriminate.
  - repeat split; try (intros; discriminate); try congruence.
    + right. left. reflexivity.
    + intros [[? ?] ?]. discriminate.
    + intros [[? ?] ?]. discriminate.
    + intros [? ?]. discriminate.
    + intros [? ?]. discriminate.
Qed.

(** The test of the first [if], on a file system whose [os.stat] may fail:
    it raises what [exists] raises again, and is otherwise the test on what
    is visible of the file system. *)
Lemma first_test_raising (os : Raising.OsFileSystem) (p : PurePosixPath) :
  Raising.and_then (Raising.exists_ os p) (Raising.is_file os p)
  = match Raising.reraised (Raising.os_stat os p) with
    | Some e => Raising.Raises e
    | None => Raising.Returns (exists_ (visible os) p && is_file (visible os) p)
    end.
Proof.
  unfold Raising.and_then, Raising.exists_, Raising.is_file, Raising.reraised,
    exists_, is_file, visible. cbn [stat].
  destruct (Raising.os_stat os p) as [kind|[errno|]].
  - destruct kind; reflexivity.
  - destruct (Raising._ignore_error errno); reflexivity.
  - reflexivity.
Qed.

(** When nothing is raised again at the candidate, the handler returns what
    it returns on the visible file system. *)
Lemma serve_raising_returns (os : Raising.OsFileSystem) (request_path : string) :
  Raising.reraised (Raising.os_stat os (candidate request_path)) = None ->
  Raising.resolve os request_path = Raising.Returns (resolve (visible os) request_path)
  /\ Raising.serve os request_path = Raising.Returns (serve (visible os) request_path).
Proof.
  intros Hnone. unfold Raising.resolve, Raising.serve, resolve, serve.
  fold (normalize request_path). fold (candidate request_path).
  rewrite first_test_raising, Hnone. cbn [Raising.bind].
  destruct (exists_ (visible os) (candidate request_path)
            && is_file (visible os) (candidate request_path));
    [split; reflexivity|].
  destruct (negb (PyStr.contains "." (normalize request_path))); split; reflexivity.
Qed.

(** When [os.stat] fails at the candidate with an error that is raised
    again, the handler raises it and reaches no return statement. *)
Lemma serve_raising_raises
    (os : Raising.OsFileSystem) (request_path : string) (e : Raising.Exception) :
  Raising.reraised (Raising.os_stat os (candidate request_path)) = Some e ->
  Raising.resolve os request_path = Raising.Raises e
  /\ Raising.serve os request_path = Raising.Raises e.
Proof.
  intros Hsome. unfold Raising.resolve, Raising.serve.
  fold (normalize request_path). fold (candidate request_path).
  rewrite first_test_raising, Hsome. split; reflexivity.
Qed.

Lemma visible_regular (os : Raising.OsFileSystem) (p : PurePosixPath) :
  is_file (visible os) p = true <-> Raising.os_stat os p = Raising.st_mode Regular.
Proof.
  unfold is_file, visible. cbn [stat].
  destruct (Raising.os_stat os p) as [[]|]; split; congruence.
Qed.

Example locked_directory_raises :
  Raising.serve locked_os "/private/report"
  = Raising.Raises (Raising.OSError Raising.EACCES).
Proof. reflexivity. Qed.

Example missing_asset_still_returns :
  Raising.serve scenario_os "/missing.png" = Raising.Returns (Response None 404).
Proof. reflexivity. Qed.

(** C7, as claimed, fails: [os.stat] refuses a name of 256 bytes with
    [ENAMETOOLONG], which [exists] raises again, so the handler leaves with
    an exception and produces no outcome at all. *)
Lemma long_name_raises_out_of_serve :
  Raising.resolve scenario_os long_request
  = Raising.Raises (Raising.OSError Raising.ENAMETOOLONG)
  /\ Raising.serve scenario_os long_request
     = Raising.Raises (Raising.OSError Raising.ENAMETOOLONG)
  /\ ~ (exists o, Raising.resolve scenario_os long_request = Raising.Returns o)
  /\ ~ always_returns.
Proof.
  assert (Hraise : Raising.resolve scenario_os long_request
                   = Raising.Raises (Raising.OSError Raising.ENAMETOOLONG))
    by (vm_compute; reflexivity).
  split; [exact Hraise|]. split; [vm_compute; reflexivity|].
  assert (Hnone : ~ (exists o, Raising.resolve scenario_os long_request = Raising.Returns o)).
  { intros [o Ho]. rewrite Hraise in Ho. discriminate Ho. }
  split; [exact Hnone|].
  intros Halways. exact (Hnone (Halways scenario_os long_request)).
Qed.

(** C7, amended: for every request path and every state of the file
    system, when [os.stat] of the candidate answers or fails with one of
    the ignored errors ([ENOENT], [ENOTDIR], [EBADF], [ELOOP]) the handler
    produces exactly one of the three outcomes, a file exactly when the
    candidate is a regular file, otherwise the fallback or not found by the
    dot test; when [os.stat] fails with any other error the handler raises
    that error and produces no outcome. *)
Theorem one_outcome_unless_stat_raises
    (os : Raising.OsFileSystem) (request_path : string) :
  match Raising.reraised (Raising.os_stat os (candidate request_path)) with
  | Some e =>
      Raising.resolve os request_path = Raising.Raises e
      /\ Raising.serve os request_path = Raising.Raises e
  | None =>
      exists o,
        Raising.resolve os request_path = Raising.Returns o
        /\ Raising.serve os request_path = Raising.Returns (respond o)
        /\ (o = ServeFile (candidate request_path) <->
            Raising.os_stat os (candidate request_path) = Raising.st_mode Regular)
        /\ (o = ServeFallback <->
            Raising.os_stat os (candidate request_path) <> Raising.st_mode Regular
            /\ PyStr.contains "." (normalize request_path) = false)
        /\ (o = NotFound <->
            Raising.os_stat os (candidate request_path) <> Raising.st_mode Regular
            /\ PyStr.contains "." (normalize request_path) = true)
  end.
Proof.
  destruct (Raising.reraised (Raising.os_stat os (candidate request_path)))
    as [e|] eqn:Hstat.
  - exact (serve_raising_raises os request_path e Hstat).
  - destruct (serve_raising_returns os request_path Hstat) as [Hresolve Hserve].
    exists (resolve (visible os) request_path).
    split; [exact Hresolve|].
    split; [rewrite Hserve, serve_respond; reflexivity|].
    rewrite resolve_eq, <- !visible_regular.
    destruct (is_file (visible os) (candidate request_path));
      [|destruct (PyStr.contains "." (normalize request_path))];
      repeat split; intros; intuition (discriminate || congruence).
Qed.

(** C8: the outcome for a request path is a function of the path and of
    what the file system holds at the candidate: two calls on the same
    state answer alike, and the answer to a request is the same whatever
    requests the worker served before it. *)
Theorem outcome_depends_on_state_only
    (fs fs' : FileSystem) (request_path : string) (before before' : list string) :
  stat fs (candidate request_path) = stat fs' (candidate request_path) ->
  resolve fs request_path = resolve fs' request_path
  /\ serve fs request_path = serve fs' request_path
  /\ nth_error (serve_all fs (before ++ [request_path])) (length before)
     = Some (serve fs request_path)
  /\ nth_error (serve_all fs (before ++ [request_path])) (length before)
     = nth_error (serve_all fs' (before' ++ [request_path])) (length before').
Proof.
  intros Hstat.
  assert (Hresolve : resolve fs request_path = resolve fs' request_path).
  { rewrite !resolve_eq. unfold is_file. rewrite Hstat. reflexivity. }
  assert (Hserve : serve fs request_path = serve fs' request_path).
  { rewrite !serve_respond, Hresolve. reflexivity. }
  assert (Hnth : forall g h,
             nth_error (serve_all g (h ++ [request_path])) (length h)
             = Some (serve g request_path)).
  { intros g h. induction h as [|r h IH]; [reflexivity | exact IH]. }
  repeat split; try assumption.
  - apply Hnth.
  - rewrite !Hnth, Hserve. reflexivity.
Qed.

Lemma outcome_depends_on_state_only_witness :
  resolve scenario_fs "/app.js" = resolve scenario_fs "/app.js"
  /\ serve scenario_fs "/about" = serve bare_fs "/about"
  /\ nth_error (serve_all scenario_fs (["/"; "/missing.png"] ++ ["/app.js"])) 2
     = nth_error (serve_all scenario_fs ([] ++ ["/app.js"])) 0.
Proof.
  split; [|split].
  - apply (outcome_depends_on_state_only scenario_fs scenario_fs "/app.js" [] []).
    reflexivity.
  - apply (outcome_depends_on_state_only scenario_fs bare_fs "/about" [] []).
    reflexivity.
  - apply (outcome_depends_on_state_only scenario_fs scenario_fs "/app.js"
             ["/"; "/missing.png"] []).
    reflexivity.
Defined.

(** C9: request paths that differ only in how many leading slashes they
    have normalize to the same name, and so get the same outcome and the
    same response on any given file system. *)
Theorem leading_slashes_do_not_matter
    (fs : FileSystem) (n m : nat) (rest : string) :
  normalize (PyStr.times "/" n ++ rest) = normalize (PyStr.times "/" m ++ rest)
  /\ resolve fs (PyStr.times "/" n ++ rest) = resolve fs (PyStr.times "/" m ++ rest)
  /\ serve fs (PyStr.times "/" n ++ rest) = serve fs (PyStr.times "/" m ++ rest).
Proof.
  assert (Hname : normalize (PyStr.times "/" n ++ rest)
                  = normalize (PyStr.times "/" m ++ rest))
    by (rewrite !normalize_eq, !lstrip_times; reflexivity).
  assert (Hresolve : resolve fs (PyStr.times "/" n ++ rest)
                     = resolve fs (PyStr.times "/" m ++ rest))
    by (rewrite !resolve_eq; unfold candidate; rewrite Hname; reflexivity).
  repeat split; try assumption.
  rewrite !serve_respond, Hresolve. reflexivity.
Qed.

(** C10: the file branch is only taken for a regular file; when the
    candidate exists but is a directory the handler does not serve it and
    goes on to the fallback (normalized name without a dot) or to not found
    (normalized name with a dot). *)
Theorem directory_is_never_served (fs : FileSystem) (request_path : string) :
  (forall location,
      resolve fs request_path = ServeFile location ->
      location = candidate request_path /\ stat fs location = Some Regular)
  /\ (exists_ fs (candidate request_path) = true ->
      is_dir fs (candidate request_path) = true ->
      (forall location, resolve fs request_path <> ServeFile location)
      /\ resolve fs request_path
         = if PyStr.contains "." (normalize request_path) then NotFound
           else ServeFallback).
Proof.
  split.
  - intros location. rewrite resolve_eq.
    destruct (is_file fs (candidate request_path)) eqn:Hfile.
    + intros [= <-]. split; [reflexivity|]. apply is_file_stat. exact Hfile.
    + destruct (PyStr.contains "." (normalize request_path)); discriminate.
  - intros _ Hdir. rewrite resolve_eq, (is_dir_not_file _ _ Hdir).
    split; [|reflexivity].
    intros location. destruct (PyStr.contains "." (normalize request_path)); discriminate.
Qed.

Lemma directory_is_never_served_witness :
  is_dir scenario_fs (candidate "/img") = true
  /\ resolve scenario_fs "/img" = ServeFallback
  /\ stat scenario_fs (Path "/assets/app.js") = Some Regular.
Proof.
  split; [reflexivity|]. split.
  - apply (proj2 (directory_is_never_served scenario_fs "/img")); reflexivity.
  - apply (proj1 (directory_is_never_served scenario_fs "/app.js")). reflexivity.
Defined.

(** ** Separators, dot segments and the parts of a name *)

Section PartsFacts.

Lemma split_not_nil (s : string) (c : ascii) : PyStr.split s c <> [].
Proof.
  destruct s as [|d s]; cbn [PyStr.split]; [discriminate|].
  destruct (Ascii.eqb d c); [discriminate|].
  destruct (PyStr.split s c); discriminate.
Qed.

(** Splitting at a separator splits the fields on both sides of it. *)
Lemma split_app_sep (a b : string) (c : ascii) :
  PyStr.split (a ++ String c b) c = (PyStr.split a c ++ PyStr.split b c)%list.
Proof.
  induction a as [|d a IH].
  - cbn [append PyStr.split]. rewrite Ascii.eqb_refl. reflexivity.
  - cbn [append PyStr.split]. destruct (Ascii.eqb d c); [rewrite IH; reflexivity|].
    rewrite IH. destruct (PyStr.split a c) as [|f fields] eqn:E.
    + exfalso. exact (split_not_nil _ _ E).
    + reflexivity.
Qed.

(** A text without the separator is a single field. *)
Lemma split_no_sep (s : string) (c : ascii) :
  ~ PyStr.occurs c s -> PyStr.split s c = [s].
Proof.
  induction s as [|d s IH]; intros Hno; [reflexivity|].
  cbn [PyStr.split]. cbn [PyStr.occurs] in Hno.
  destruct (Ascii.eqb d c) eqn:E.
  - apply Ascii.eqb_eq in E. subst d. tauto.
  - rewrite IH by tauto. reflexivity.
Qed.

Lemma components_app_sep (a b : string) :
  components (a ++ String "/" b) = (components a ++ components b)%list.
Proof. unfold components, sep. rewrite split_app_sep, filter_app. reflexivity. Qed.

Lemma occurs_app (c : ascii) (a b : string) :
  PyStr.occurs c (a ++ b) <-> PyStr.occurs c a \/ PyStr.occurs c b.
Proof.
  induction a as [|d a IH]; cbn [append PyStr.occurs]; [tauto|].
  rewrite IH. tauto.
Qed.

(** Two names with the same characters answer the dot test alike. *)
Lemma contains_dot_same (x y : string) :
  (PyStr.occurs "." x <-> PyStr.occurs "." y) ->
  PyStr.contains "." x = PyStr.contains "." y.
Proof.
  intros H. apply eq_true_iff_eq. rewrite !contains_char. exact H.
Qed.

(** [lstrip] of a text followed by another one. *)
Lemma lstrip_app (a b : string) :
  PyStr.lstrip (a ++ b) "/"
  = if PyStr.falsy (PyStr.lstrip a "/") then PyStr.lstrip b "/"
    else PyStr.lstrip a "/" ++ b.
Proof.
  induction a as [|c a IH]; [reflexivity|].
  cbn [append PyStr.lstrip]. rewrite mem_slash.
  destruct (Ascii.eqb c "/"); [exact IH | reflexivity].
Qed.

Lemma falsy_app (a b : string) :
  PyStr.falsy a = false -> PyStr.falsy (a ++ b) = false.
Proof. destruct a; [discriminate | reflexivity]. Qed.

Lemma normalize_app (a b : string) :
  PyStr.falsy (PyStr.lstrip a "/") = false ->
  normalize (a ++ b) = PyStr.lstrip a "/" ++ b.
Proof.
  intros Ha. rewrite normalize_eq, lstrip_app, Ha, (falsy_app _ _ Ha). reflexivity.
Qed.

(** Requests whose names have the same parts and answer the dot test alike
    are resolved alike. *)
Lemma resolve_same_name (fs : FileSystem) (p q : string) :
  components (normalize p) = components (normalize q) ->
  PyStr.contains "." (normalize p) = PyStr.contains "." (normalize q) ->
  candidate p = candidate q
  /\ resolve fs p = resolve fs q
  /\ serve fs p = serve fs q.
Proof.
  intros Hparts Hdot.
  assert (Hc : candidate p = candidate q) by (rewrite !candidate_parts, Hparts; reflexivity).
  assert (Hr : resolve fs p = resolve fs q) by (rewrite !resolve_eq, Hc, Hdot; reflexivity).
  repeat split; try assumption.
  rewrite !serve_respond, Hr. reflexivity.
Qed.

(** The parts of a name kept by pathlib are neither empty nor a single dot. *)
Lemma components_well_formed (s : string) :
  Forall (fun x => x <> EmptyString /\ x <> ".") (components s).
Proof.
  apply Forall_forall. intros x Hin.
  unfold components in Hin. apply filter_In in Hin. destruct Hin as [_ Hx].
  unfold is_component in Hx. apply andb_true_iff in Hx. destruct Hx as [Hne Hdot].
  split.
  - intros ->. discriminate.
  - intros ->. discriminate.
Qed.

(** The parts of names joined with slashes are those names. *)
Lemma components_concat (names : list string) :
  Forall (fun x => is_component x = true /\ ~ PyStr.occurs "/" x) names ->
  components (String.concat "/" names) = names.
Proof.
  induction names as [|x rest IH]; intros Hall; [reflexivity|].
  inversion Hall as [|? ? [Hx Hno] Hrest]; subst.
  assert (Hone : components x = [x]).
  { unfold components, sep. rewrite (split_no_sep _ _ Hno). cbn [filter]. rewrite Hx. reflexivity. }
  destruct rest as [|y rest]; [exact Hone|].
  change (String.concat "/" (x :: y :: rest))
    with (x ++ String "/" (String.concat "/" (y :: rest))).
  rewrite components_app_sep, Hone, (IH Hrest). reflexivity.
Qed.

End PartsFacts.

(** ** Further behaviour of the handler *)


Lemma is_component_iff (x : string) :
  is_component x = true <-> x <> EmptyString /\ x <> ".".
Proof.
  unfold is_component. rewrite andb_true_iff, !negb_true_iff, String.eqb_neq.
  destruct x; cbn [PyStr.falsy]; split; intros [H1 H2]; split;
    congruence || discriminate || reflexivity.
Qed.



(** X2: every location the handler serves is an absolute path whose first
    part is [assets], and none of its parts is empty or a single dot: the
    name never replaces the assets root in the join, whatever the request
    starts with. *)
Theorem served_location_starts_with_assets
    (fs : FileSystem) (request_path : string) (location : PurePosixPath) :
  serve fs request_path = FileResponse location ->
  root location = "/"
  /\ exists rest,
       parts location = "assets" :: rest
       /\ Forall (fun x => x <> EmptyString /\ x <> ".") rest.
Proof.
  rewrite serve_respond, resolve_eq.
  destruct (is_file fs (candidate request_path)).
  - cbn [respond]. intros [= <-]. rewrite candidate_parts. split; [reflexivity|].
    eexists. split; [reflexivity|]. apply components_well_formed.
  - destruct (PyStr.contains "." (normalize request_path)); cbn [respond]; [discriminate|].
    intros [= <-]. split; [reflexivity|].
    exists ["index.html"]. split; [reflexivity|].
    constructor; [split; discriminate | constructor].
Qed.

Lemma served_location_starts_with_assets_witness :
  root (Path "/assets/app.js") = "/"
  /\ exists rest,
       parts (Path "/assets/app.js") = "assets" :: rest
       /\ Forall (fun x => x <> EmptyString /\ x <> ".") rest.
Proof.
  apply (served_location_starts_with_assets scenario_fs "//app.js"). reflexivity.
Defined.

(** X3: a doubled slash anywhere in the request path is resolved like a
    single one. *)
Theorem doubled_slash_is_collapsed (fs : FileSystem) (a b : string) :
  resolve fs (a ++ "//" ++ b) = resolve fs (a ++ "/" ++ b)
  /\ serve fs (a ++ "//" ++ b) = serve fs (a ++ "/" ++ b).
Proof.
  cut (candidate (a ++ "//" ++ b) = candidate (a ++ "/" ++ b)
       /\ resolve fs (a ++ "//" ++ b) = resolve fs (a ++ "/" ++ b)
       /\ serve fs (a ++ "//" ++ b) = serve fs (a ++ "/" ++ b)); [tauto|].
  destruct (PyStr.falsy (PyStr.lstrip a "/")) eqn:Ha.
  - assert (Hname : normalize (a ++ "//" ++ b) = normalize (a ++ "/" ++ b)).
    { rewrite !normalize_eq, !lstrip_app, Ha. reflexivity. }
    apply resolve_same_name; rewrite Hname; reflexivity.
  - apply resolve_same_name; rewrite !(normalize_app _ _ Ha).
    + cbn [append]. rewrite !components_app_sep. reflexivity.
    + apply contains_dot_same. rewrite !occurs_app. cbn [append PyStr.occurs].
      split; intros [H|[H|H]]; try discriminate H; tauto.
Qed.

(** X4: a slash at the end of the request path does not change the
    outcome: pathlib drops it when it parses the candidate. *)
Theorem trailing_slash_is_ignored (fs : FileSystem) (request_path : string) :
  resolve fs (request_path ++ "/") = resolve fs request_path
  /\ serve fs (request_path ++ "/") = serve fs request_path.
Proof.
  cut (candidate (request_path ++ "/") = candidate request_path
       /\ resolve fs (request_path ++ "/") = resolve fs request_path
       /\ serve fs (request_path ++ "/") = serve fs request_path); [tauto|].
  destruct (PyStr.falsy (PyStr.lstrip request_path "/")) eqn:Hp.
  - assert (Hname : normalize (request_path ++ "/") = normalize request_path).
    { rewrite !normalize_eq, lstrip_app, Hp. reflexivity. }
    apply resolve_same_name; rewrite Hname; reflexivity.
  - assert (Hname : normalize request_path = PyStr.lstrip request_path "/")
      by (rewrite normalize_eq, Hp; reflexivity).
    apply resolve_same_name; rewrite (normalize_app _ _ Hp), Hname.
    + rewrite components_app_sep. cbn. apply app_nil_r.
    + apply contains_dot_same. rewrite occurs_app. cbn [PyStr.occurs].
      split; [intros [H|[H|[]]]; [exact H | discriminate H] | tauto].
Qed.



(** X6: the handler only serves a location that [stat] reports as a
    regular file, with one exception: [/assets/index.html] on the fallback
    branch, which is served without being looked at. *)
Theorem only_index_is_served_unchecked
    (fs : FileSystem) (request_path : string) (location : PurePosixPath) :
  serve fs request_path = FileResponse location ->
  stat fs location = Some Regular
  \/ (location = Path "/assets/index.html"
      /\ PyStr.contains "." (normalize request_path) = false
      /\ is_file fs (candidate request_path) = false).
Proof.
  rewrite serve_respond, resolve_eq.
  destruct (is_file fs (candidate request_path)) eqn:Hfile.
  - cbn [respond]. intros [= <-]. left. apply is_file_stat. exact Hfile.
  - destruct (PyStr.contains "." (normalize request_path)); cbn [respond]; [discriminate|].
    intros [= <-]. right. repeat split.
Qed.

Lemma only_index_is_served_unchecked_witness :
  stat bare_fs (Path "/assets/index.html") = None
  /\ (stat bare_fs (Path "/assets/index.html") = Some Regular
      \/ (Path "/assets/index.html" = Path "/assets/index.html"
          /\ PyStr.contains "." (normalize "/about") = false
          /\ is_file bare_fs (candidate "/about") = false)).
Proof.
  split; [reflexivity|].
  apply (only_index_is_served_unchecked bare_fs "/about"). reflexivity.
Defined.



(** X8: a regular file under the assets root is served at the URL made of
    its names joined with slashes, when no name is empty, a single dot or
    has a slash in it. *)
Theorem deployed_file_is_reachable (fs : FileSystem) (names : list string) :
  names <> [] ->
  Forall (fun x => x <> EmptyString /\ x <> "." /\ ~ PyStr.occurs "/" x) names ->
  stat fs (MkPath "/" ("assets" :: names)) = Some Regular ->
  resolve fs ("/" ++ String.concat "/" names) = ServeFile (MkPath "/" ("assets" :: names))
  /\ serve fs ("/" ++ String.concat "/" names) = FileResponse (MkPath "/" ("assets" :: names)).
Proof.
  intros Hne Hall Hstat.
  assert (Hrel : PyStr.startswith (String.concat "/" names) "/" = false
                 /\ PyStr.falsy (String.concat "/" names) = false).
  { destruct names as [|x rest]; [congruence|].
    inversion Hall as [|? ? [Hx [_ Hno]] _]; subst.
    destruct x as [|c x]; [congruence|].
    assert (Hc : Ascii.eqb c "/" = false).
    { apply Ascii.eqb_neq. intros ->. apply Hno. left. reflexivity. }
    rewrite startswith_slash.
    destruct rest; cbn [String.concat append PyStr.falsy]; split; (exact Hc || reflexivity). }
  destruct Hrel as [Hrel Hfalsy].
  assert (Hname : normalize ("/" ++ String.concat "/" names) = String.concat "/" names).
  { rewrite normalize_eq. change ("/" ++ String.concat "/" names)
      with (PyStr.times "/" 1 ++ String.concat "/" names).
    rewrite lstrip_times, (lstrip_fixed _ Hrel), Hfalsy. reflexivity. }
  assert (Hc : candidate ("/" ++ String.concat "/" names) = MkPath "/" ("assets" :: names)).
  { rewrite candidate_parts, Hname, components_concat; [reflexivity|].
    eapply Forall_impl; [|exact Hall].
    intros x [H1 [H2 H3]]. split; [apply is_component_iff; tauto | exact H3]. }
  apply is_file_stat in Hstat. rewrite <- Hc in Hstat |- *.
  rewrite serve_respond, resolve_eq, Hstat. split; reflexivity.
Qed.

Lemma deployed_file_is_reachable_witness :
  resolve scenario_fs "/style.css" = ServeFile (MkPath "/" ["assets"; "style.css"])
  /\ serve scenario_fs "/style.css" = FileResponse (MkPath "/" ["assets"; "style.css"]).
Proof.
  apply (deployed_file_is_reachable scenario_fs ["style.css"]).
  - discriminate.
  - constructor; [|constructor]. split; [discriminate|]. split; [discriminate|].
    cbn. intros H. repeat (destruct H as [H|H]; [discriminate H|]). exact H.
  - reflexivity.
Defined.
